(** * Form_app.py: the question parser and the Google Forms request builder

    Shallow embedding of [parse_questions], [create_google_form] and the
    input and submission steps of [main] from src/Form_app.py.  The OAuth
    helpers and the credential file helpers only perform I/O and are not
    modelled.

    Text model.  Python [str] values are modelled as Rocq [string]s holding
    the UTF-8 bytes of the text.  The check-mark glyph U+2705 is the three
    byte sequence of [check_mark]; prefix tests on it coincide with Python's
    code-point tests.  Character classes are modelled on ASCII: [\s] and
    [str.strip] use the ASCII characters that Python counts as whitespace
    (TAB..CR, 0x1C..0x1F, SPACE), [\d] uses ASCII digits, and [str.upper]
    maps a..z to A..Z; non-ASCII whitespace, digits and case mappings are
    outside the model of these.  [int] is the exception: it decodes the
    UTF-8 text itself and follows CPython 3.11 (Unicode 14.0 whitespace
    and decimal digits, and the default limit of 4300 digits). *)

From Stdlib Require Import String Ascii List Bool ZArith Lia.
Import ListNotations.
Open Scope string_scope.
Open Scope list_scope.

(* ------------------------------------------------------------------ *)
(** ** Python string primitives *)

Module Py.
Local Open Scope nat_scope.

Definition is_space (c : ascii) : bool :=
  let n := nat_of_ascii c in
  ((9 <=? n) && (n <=? 13)) || ((28 <=? n) && (n <=? 31)) || (n =? 32).

Definition is_digit (c : ascii) : bool :=
  let n := nat_of_ascii c in (48 <=? n) && (n <=? 57).

Definition newline : ascii := ascii_of_nat 10.

(** [s.lstrip()] *)
Fixpoint lstrip (s : string) : string :=
  match s with
  | EmptyString => EmptyString
  | String c r => if is_space c then lstrip r else s
  end.

Definition rev_str (s : string) : string :=
  string_of_list_ascii (rev (list_ascii_of_string s)).

(** [s.strip()] *)
Definition strip (s : string) : string := rev_str (lstrip (rev_str (lstrip s))).

(** [s.lstrip(c)] for a single character [c] *)
Fixpoint lstrip_char (c : ascii) (s : string) : string :=
  match s with
  | EmptyString => EmptyString
  | String d r => if Ascii.eqb c d then lstrip_char c r else s
  end.

Definition upper_char (c : ascii) : ascii :=
  let n := nat_of_ascii c in
  if (97 <=? n) && (n <=? 122) then ascii_of_nat (n - 32) else c.

(** [s.upper()] *)
Fixpoint upper (s : string) : string :=
  match s with
  | EmptyString => EmptyString
  | String c r => String (upper_char c) (upper r)
  end.

(** [s.startswith(p)] *)
Definition startswith (s p : string) : bool := String.prefix p s.

(** [sub in s] *)
Fixpoint contains (s sub : string) : bool :=
  String.prefix sub s ||
  match s with
  | EmptyString => false
  | String _ r => contains r sub
  end.

(** [s.split(sep)] for a one-character separator; never empty *)
Fixpoint split_char (sep : ascii) (s : string) : list string :=
  match s with
  | EmptyString => [EmptyString]
  | String c r =>
      if Ascii.eqb c sep then EmptyString :: split_char sep r
      else match split_char sep r with
           | h :: t => String c h :: t
           | [] => [String c EmptyString]
           end
  end.

(** [sep.join(xs)] *)
Fixpoint join (sep : string) (xs : list string) : string :=
  match xs with
  | [] => EmptyString
  | [x] => x
  | x :: t => x ++ sep ++ join sep t
  end.

(** [xs[-1]] on a non-empty list *)
Definition last_elem (xs : list string) : string := last xs EmptyString.

(** [s.split(":")[-1]] *)
Definition after_last_colon (s : string) : string :=
  last_elem (split_char ":"%char s).

(** [s.replace(old, "", 1)] *)
Fixpoint remove_first (old s : string) : string :=
  if String.prefix old s then substring (String.length old) (String.length s) s
  else match s with
       | EmptyString => EmptyString
       | String c r => String c (remove_first old r)
       end.

(** [s.replace("\n", " ")] *)
Fixpoint replace_newlines (s : string) : string :=
  match s with
  | EmptyString => EmptyString
  | String c r =>
      String (if Ascii.eqb c newline then " "%char else c) (replace_newlines r)
  end.

(** [int(s)] on a [str], following CPython's [PyLong_FromUnicodeObject]:
    the text is decoded from UTF-8, every non-ASCII whitespace character
    becomes a space and every decimal digit (Unicode category Nd) its
    ASCII digit, the first other non-ASCII character ends the text as a
    ['?']; the ASCII result is then read by [PyLong_FromString] in base 10.
    [None] is the [ValueError] case. *)

(** The code points of a UTF-8 byte string (a malformed sequence, which no
    Python [str] produces, reads as U+FFFD). *)
Fixpoint utf8_decode (l : list ascii) : list Z :=
  let byte c := Z.of_nat (nat_of_ascii c) in
  let cont c := Z.land (byte c) 63 in
  match l with
  | [] => []
  | c :: r =>
      let b := byte c in
      if (b <? 128)%Z then b :: utf8_decode r
      else match r with
        | c1 :: r1 =>
            if (192 <=? b)%Z && (b <? 224)%Z
            then (Z.land b 31 * 64 + cont c1)%Z :: utf8_decode r1
            else match r1 with
              | c2 :: r2 =>
                  if (224 <=? b)%Z && (b <? 240)%Z
                  then (Z.land b 15 * 4096 + cont c1 * 64 + cont c2)%Z :: utf8_decode r2
                  else match r2 with
                    | c3 :: r3 =>
                        if (240 <=? b)%Z && (b <? 248)%Z
                        then (Z.land b 7 * 262144 + cont c1 * 4096 + cont c2 * 64
                              + cont c3)%Z :: utf8_decode r3
                        else 65533%Z :: utf8_decode r
                    | [] => 65533%Z :: utf8_decode r
                    end
              | [] => 65533%Z :: utf8_decode r
              end
        | [] => [65533%Z]
        end
  end.

(** [Py_UNICODE_ISSPACE] on the code points from U+007F on (Unicode 14.0,
    the database of CPython 3.11). *)
Definition unicode_space (ch : Z) : bool :=
  existsb (Z.eqb ch) [0x85; 0xa0; 0x1680; 0x2028; 0x2029; 0x202f; 0x205f; 0x3000]%Z
  || ((0x2000 <=? ch) && (ch <=? 0x200a))%Z.

(** The code points of digit zero of the 66 runs of ten decimal digits of
    Unicode 14.0 (category Nd); the digit [d] of a run is its zero plus [d]. *)
Definition decimal_zeros : list Z :=
  [
   0x30; 0x660; 0x6f0; 0x7c0; 0x966; 0x9e6; 0xa66; 0xae6;
   0xb66; 0xbe6; 0xc66; 0xce6; 0xd66; 0xde6; 0xe50; 0xed0;
   0xf20; 0x1040; 0x1090; 0x17e0; 0x1810; 0x1946; 0x19d0; 0x1a80;
   0x1a90; 0x1b50; 0x1bb0; 0x1c40; 0x1c50; 0xa620; 0xa8d0; 0xa900;
   0xa9d0; 0xa9f0; 0xaa50; 0xabf0; 0xff10; 0x104a0; 0x10d30; 0x11066;
   0x110f0; 0x11136; 0x111d0; 0x112f0; 0x11450; 0x114d0; 0x11650; 0x116c0;
   0x11730; 0x118e0; 0x11950; 0x11c50; 0x11d50; 0x11da0; 0x16a60; 0x16ac0;
   0x16b50; 0x1d7ce; 0x1d7d8; 0x1d7e2; 0x1d7ec; 0x1d7f6; 0x1e140; 0x1e2f0;
   0x1e950; 0x1fbf0
  ]%Z.

(** [Py_UNICODE_TODECIMAL] *)
Definition decimal_value (ch : Z) : option Z :=
  match find (fun z => (z <=? ch) && (ch <? z + 10))%Z decimal_zeros with
  | Some z => Some (ch - z)%Z
  | None => None
  end.

(** [_PyUnicode_TransformDecimalAndSpaceToASCII] *)
Fixpoint transform_decimal_and_space (cps : list Z) : list ascii :=
  match cps with
  | [] => []
  | ch :: r =>
      if (ch <? 127)%Z then ascii_of_nat (Z.to_nat ch) :: transform_decimal_and_space r
      else if unicode_space ch then " "%char :: transform_decimal_and_space r
      else match decimal_value ch with
           | Some d => ascii_of_nat (48 + Z.to_nat d) :: transform_decimal_and_space r
           | None => ["?"%char]
           end
  end.

(** [Py_ISSPACE]: the C locale's space characters. *)
Definition c_isspace (c : ascii) : bool :=
  let n := nat_of_ascii c in ((9 <=? n) && (n <=? 13)) || (n =? 32).

Fixpoint skip_c_space (l : list ascii) : list ascii :=
  match l with
  | c :: r => if c_isspace c then skip_c_space r else l
  | [] => []
  end.

(** The digit loop of [PyLong_FromString]: digits with single underscores
    between them.  Returns the value, the number of digits and the rest;
    [None] when there is no digit, or on a leading, doubled or trailing
    underscore. *)
Fixpoint scan_digits (acc count : Z) (prev_digit : bool) (l : list ascii)
  : option (Z * Z * list ascii) :=
  match l with
  | [] => if prev_digit then Some (acc, count, []) else None
  | c :: r =>
      if is_digit c then
        scan_digits (acc * 10 + Z.of_nat (nat_of_ascii c - 48))%Z (count + 1)%Z true r
      else if Ascii.eqb c "_"%char then
        (if prev_digit then scan_digits acc count false r else None)
      else if prev_digit then Some (acc, count, l) else None
  end.

(** [sys.get_int_max_str_digits()] at its default *)
Definition max_str_digits : Z := 4300%Z.

(** [PyLong_FromString(s, &end, 10)] followed by the check that [end] is
    the end of the text. *)
Definition long_from_string (l0 : list ascii) : option Z :=
  let l := skip_c_space l0 in
  let '(negative, l) :=
    match l with
    | "-"%char :: r => (true, r)
    | "+"%char :: r => (false, r)
    | _ => (false, l)
    end in
  match scan_digits 0%Z 0%Z false l with
  | Some (v, count, tail) =>
      if (max_str_digits <? count)%Z then None
      else match skip_c_space tail with
           | [] => Some (if negative then (- v)%Z else v)
           | _ :: _ => None
           end
  | None => None
  end.

Definition int_of_string (s : string) : option Z :=
  long_from_string
    (transform_decimal_and_space (utf8_decode (list_ascii_of_string s))).

End Py.

(* ------------------------------------------------------------------ *)
(** ** The regular expressions of [parse_questions]

    A pattern is a matcher returning every remainder of the input it can
    leave, in the priority order of Python's backtracking engine (greedy
    quantifiers try the longer match first).  [re.match] succeeds iff the
    list is non-empty, and the first remainder is the match Python reports. *)

Module Re.

Definition matcher := string -> list string.

Definition m_char (p : ascii -> bool) : matcher := fun s =>
  match s with
  | String c r => if p c then [r] else []
  | EmptyString => []
  end.

Definition m_lit (l : string) : matcher := fun s =>
  if String.prefix l s then [substring (String.length l) (String.length s) s] else [].

(** "p*", greedy *)
Fixpoint m_star (p : ascii -> bool) (s : string) : list string :=
  match s with
  | String c r => if p c then m_star p r ++ [s] else [s]
  | EmptyString => [EmptyString]
  end.

(** [p+], greedy *)
Definition m_plus (p : ascii -> bool) : matcher := fun s =>
  match s with
  | String c r => if p c then m_star p r else []
  | EmptyString => []
  end.

(** [m?], greedy *)
Definition m_opt (m : matcher) : matcher := fun s => m s ++ [s].

Definition m_seq (m1 m2 : matcher) : matcher := fun s => flat_map m2 (m1 s).

Definition matches (m : matcher) (s : string) : bool :=
  match m s with [] => false | _ => true end.

Definition is_char (c : ascii) (d : ascii) : bool := Ascii.eqb c d.

Definition is_A_to_D (c : ascii) : bool :=
  let n := nat_of_ascii c in ((65 <=? n) && (n <=? 68))%nat.

End Re.

Import Re.

(** The check-mark glyph U+2705, as its UTF-8 bytes. *)
Definition check_mark : string := "✅".

(** The Python pattern of the first option trigger. *)
Definition lettered_option_pattern : string := "^([*]?\s*✅?\s*)?[A-D]\)".

(** Matcher for [lettered_option_pattern]. *)
Definition lettered_option_re : matcher :=
  m_seq (m_opt (m_seq (m_opt (m_char (is_char "*")))
                 (m_seq (m_star Py.is_space)
                   (m_seq (m_opt (m_lit check_mark)) (m_star Py.is_space)))))
        (m_seq (m_char is_A_to_D) (m_char (is_char ")"))).

(** Python pattern "^\*+\s*" *)
Definition star_option_re : matcher :=
  m_seq (m_plus (is_char "*")) (m_star Py.is_space).

(** Python pattern "^✅" *)
Definition check_option_re : matcher := m_lit check_mark.

(** Python pattern "\d+\.\s", the look-ahead of the block separator *)
Definition block_head_re : matcher :=
  m_seq (m_plus Py.is_digit) (m_seq (m_char (is_char ".")) (m_char Py.is_space)).

(** Python pattern "^\d+\.\s*" *)
Definition number_prefix_re : matcher :=
  m_seq (m_plus Py.is_digit) (m_seq (m_char (is_char ".")) (m_star Py.is_space)).

(** Python "re.sub(r'^\d+\.\s*', '', s)": the anchored pattern matches at most once *)
Definition strip_number_prefix (s : string) : string :=
  match number_prefix_re s with
  | r :: _ => r
  | [] => s
  end.

(** Python "re.split(r'\n(?=\d+\.\s)', s)" *)
Fixpoint split_blocks (s : string) : list string :=
  match s with
  | EmptyString => [EmptyString]
  | String c r =>
      if Ascii.eqb c Py.newline && matches block_head_re r then EmptyString :: split_blocks r
      else match split_blocks r with
           | h :: t => String c h :: t
           | [] => [String c EmptyString]
           end
  end.

(** The text of the last group of [lettered_pattern]: everything up to the
    first newline. *)
Fixpoint dot_star (s : string) : string :=
  match s with
  | EmptyString => EmptyString
  | String c r => if Ascii.eqb c Py.newline then EmptyString else String c (dot_star r)
  end.

(** The Python pattern of an option line. *)
Definition lettered_pattern : string := "^([A-D])\)\s*(.*)".

(** [re.match(lettered_pattern, line)], returning its two groups *)
Definition match_lettered (line : string) : option (ascii * string) :=
  match line with
  | String c (String d r) =>
      if is_A_to_D c && Ascii.eqb d ")" then Some (c, dot_star (Py.lstrip r)) else None
  | _ => None
  end.

(* ------------------------------------------------------------------ *)
(** ** [parse_questions] *)

(** The dictionary built for each question. *)
Record question_data := mk_question {
  question : string;
  type : string;
  options : list string;
  correct_answers : list string;
  points : Z;
  description : string
}.

(** The first loop, "Collect code/description lines": from the line after
    the title, lines are kept with their original spacing until a trigger
    line.  Returns the kept lines, the lines from the trigger on, and the
    values of [has_lettered_option] and [has_any_options] at the [break]. *)
Fixpoint collect_code (lines : list string)
  : list string * list string * bool * bool :=
  match lines with
  | [] => ([], [], false, false)
  | l :: rest =>
      let line := Py.strip l in
      if matches lettered_option_re line then ([], lines, true, true)
      else if matches star_option_re line then ([], lines, false, true)
      else if matches check_option_re line then ([], lines, false, true)
      else if Py.contains (Py.upper line) "CORRECT ANSWER" then ([], lines, false, false)
      else if Py.contains (Py.upper line) "TYPE:" || Py.contains (Py.upper line) "POINTS:"
      then ([], lines, false, false)
      else let '(code_lines, rem, hl, ha) := collect_code rest in
           (l :: code_lines, rem, hl, ha)
  end.

(** The local variables updated by the second loop, "Collect options". *)
Record collect_state := mk_state {
  cs_options : list string;
  cs_correct_answers : list string;
  cs_qtype : option string;
  cs_points : Z;
  cs_has_lettered_option : bool;
  cs_has_any_options : bool
}.

(** [for letter in letters: for opt in options: if opt.startswith(...)] *)
Definition answers_for_letters (letters options : list string) : list string :=
  flat_map (fun letter =>
    filter (fun opt => Py.startswith opt (Py.upper (Py.strip letter) ++ ")")) options)
    letters.

(** One iteration of the second loop on [lines[i]]. *)
Definition collect_step (st : collect_state) (l : string) : collect_state :=
  let raw_line := Py.strip l in
  if String.eqb raw_line "" then st
  else if Py.contains (Py.upper raw_line) "CORRECT ANSWER" then
    let letters := Py.split_char ","%char (Py.strip (Py.after_last_colon raw_line)) in
    {| cs_options := cs_options st;
       cs_correct_answers := cs_correct_answers st ++ answers_for_letters letters (cs_options st);
       cs_qtype := cs_qtype st; cs_points := cs_points st;
       cs_has_lettered_option := cs_has_lettered_option st;
       cs_has_any_options := cs_has_any_options st |}
  else if Py.contains (Py.upper raw_line) "TYPE:" then
    {| cs_options := cs_options st; cs_correct_answers := cs_correct_answers st;
       cs_qtype := Some (Py.upper (Py.strip (Py.after_last_colon raw_line)));
       cs_points := cs_points st;
       cs_has_lettered_option := cs_has_lettered_option st;
       cs_has_any_options := cs_has_any_options st |}
  else if Py.contains (Py.upper raw_line) "POINTS:" then
    {| cs_options := cs_options st; cs_correct_answers := cs_correct_answers st;
       cs_qtype := cs_qtype st;
       cs_points := match Py.int_of_string (Py.strip (Py.after_last_colon raw_line)) with
                    | Some n => n
                    | None => 0%Z
                    end;
       cs_has_lettered_option := cs_has_lettered_option st;
       cs_has_any_options := cs_has_any_options st |}
  else
    let line0 := Py.strip (Py.lstrip_char "*"%char raw_line) in
    let '(is_correct, line) :=
      if Py.startswith line0 check_mark
      then (true, Py.strip (Py.remove_first check_mark line0))
      else (false, line0) in
    match match_lettered line with
    | Some (letter, text0) =>
        let full_option := String letter (") " ++ Py.strip text0) in
        {| cs_options := cs_options st ++ [full_option];
           cs_correct_answers :=
             cs_correct_answers st ++ (if is_correct then [full_option] else []);
           cs_qtype := cs_qtype st; cs_points := cs_points st;
           cs_has_lettered_option := true;
           cs_has_any_options := true |}
    | None =>
        if String.eqb line "" then st
        else {| cs_options := cs_options st ++ [line];
                cs_correct_answers :=
                  cs_correct_answers st ++ (if is_correct then [line] else []);
                cs_qtype := cs_qtype st; cs_points := cs_points st;
                cs_has_lettered_option := cs_has_lettered_option st;
                cs_has_any_options := true |}
    end.

Definition code_markers : list string :=
  ["="; ":"; "def"; "{"; "}"; "return"; "print"; "import"].

(** Python truthiness of [qtype] (None and "" are falsy). *)
Definition qtype_set (q : option string) : option string :=
  match q with
  | Some t => if String.eqb t "" then None else Some t
  | None => None
  end.

(** The body of [for block in blocks]; [None] is the [continue]. *)
Definition parse_block (block : string) : option question_data :=
  let lines := Py.split_char Py.newline (Py.strip block) in
  match lines with
  | [] => None
  | first :: after_title =>
    let question_text := strip_number_prefix (Py.strip first) in
    let '(code_lines, rest, hl, ha) := collect_code after_title in
    let code_block := Py.join (String Py.newline EmptyString) code_lines in
    let is_code_like := existsb (Py.contains code_block) code_markers in
    let has_code := negb (String.eqb (Py.strip code_block) "") && is_code_like in
    let description0 := if has_code then code_block else "" in
    let st := fold_left collect_step rest
                {| cs_options := []; cs_correct_answers := []; cs_qtype := None;
                   cs_points := 0%Z; cs_has_lettered_option := hl;
                   cs_has_any_options := ha |} in
    let qtype :=
      match qtype_set (cs_qtype st) with
      | Some t => t
      | None =>
          match cs_options st with
          | _ :: _ => if (1 <? length (cs_correct_answers st))%nat then "CHECKBOX" else "MCQ"
          | [] => "SHORT"
          end
      end in
    let fallback :=
      negb has_code
      && negb (match cs_options st with [] => true | _ => false end)
      && (match cs_correct_answers st with [] => true | _ => false end)
      && negb (cs_has_lettered_option st) in
    let '(return_type, return_description, return_options) :=
      if fallback
      then ("SHORT", Py.join (String Py.newline EmptyString)
                       (map (fun opt => ("- " ++ opt)%string) (cs_options st)), [])
      else (qtype, description0, cs_options st) in
    Some {| question := question_text;
            type := return_type;
            options := return_options;
            correct_answers := cs_correct_answers st;
            points := cs_points st;
            description := Py.strip return_description |}
  end.

(** [parse_questions(text)] *)
Definition parse_questions (text : string) : list question_data :=
  flat_map (fun block => match parse_block block with
                         | Some q => [q]
                         | None => []
                         end)
           (split_blocks (Py.strip text)).

(* ------------------------------------------------------------------ *)
(** ** [create_google_form] *)

(** The question-type payload of a created item. *)
Inductive question_kind :=
  | ChoiceQuestion (choice_type : string) (choice_options : list string) (shuffle : bool)
  | TextQuestion (paragraph : bool)
  | DateQuestion
  | TimeQuestion.

(** The [item] dictionary of a [createItem] request. *)
Record item := mk_item {
  title : string;
  item_description : string;
  required : bool;
  question_type : option question_kind
}.

(** The three request dictionaries placed in the batch update. *)
Inductive request :=
  | UpdateSettings (is_quiz : bool) (update_mask : string)
  | CreateItem (it : item) (location_index : Z)
  | UpdateItem (location_index : Z) (answers : list string) (point_value : Z)
               (update_mask : string).

(** The observable outcome of a call: whether [service.forms().create] is
    called for a new form, and the [requests] of the batch update. *)
Record form_call := mk_form_call {
  creates_form : bool;
  requests : list request
}.

(** [s.split("\n", 1)] when [s] contains a newline *)
Fixpoint split_first_newline (s : string) : option (string * string) :=
  match s with
  | EmptyString => None
  | String c r =>
      if Ascii.eqb c Py.newline then Some (EmptyString, r)
      else match split_first_newline r with
           | Some (a, b) => Some (String c a, b)
           | None => None
           end
  end.

Definition qtype_map (t : string) : string :=
  if String.eqb t "MCQ" then "RADIO"
  else if String.eqb t "CHECKBOX" then "CHECKBOX"
  else "DROP_DOWN".

(** The [item] built for [q] in the loop body. *)
Definition item_of (shuffle : bool) (q : question_data) : item :=
  let '(title0, desc) :=
    match split_first_newline (question q) with
    | Some (part0, part1) => (Py.strip part0, part1)
    | None => (Py.strip (question q), description q)
    end in
  let t := type q in
  {| title := Py.replace_newlines title0;
     item_description := desc;
     required := true;
     question_type :=
       if String.eqb t "MCQ" || String.eqb t "CHECKBOX" || String.eqb t "DROPDOWN"
       then Some (ChoiceQuestion (qtype_map t) (options q) shuffle)
       else if String.eqb t "SHORT" then Some (TextQuestion false)
       else if String.eqb t "LONG" then Some (TextQuestion true)
       else if String.eqb t "DATE" then Some DateQuestion
       else if String.eqb t "TIME" then Some TimeQuestion
       else None |}.

(** One iteration of [for q in parsed_questions[::-1]]. *)
Definition form_loop_body (shuffle quiz_mode : bool)
    (reqs : list request) (q : question_data) : list request :=
  let reqs := reqs ++ [CreateItem (item_of shuffle q) 0%Z] in
  if quiz_mode
     && negb (match correct_answers q with [] => true | _ => false end)
     && (String.eqb (type q) "MCQ" || String.eqb (type q) "CHECKBOX")
  then
    let pts := if Z.eqb (points q) 0 then 1%Z else points q in
    reqs ++ [UpdateItem 0%Z (correct_answers q) pts "questionItem.question.grading"]
  else reqs.

(** [create_google_form(creds, parsed_questions, shuffle, form_id, quiz_mode)]
    without the two remote calls. *)
Definition create_google_form (parsed_questions : list question_data)
    (shuffle : bool) (form_id : option string) (quiz_mode : bool) : form_call :=
  let creates := match form_id with
                 | None => true
                 | Some f => String.eqb f ""
                 end in
  let reqs0 := if quiz_mode then [UpdateSettings true "quizSettings.isQuiz"] else [] in
  {| creates_form := creates;
     requests := fold_left (form_loop_body shuffle quiz_mode) (rev parsed_questions) reqs0 |}.

(* ------------------------------------------------------------------ *)
(** ** Views on a request list *)

(** The [createItem] requests, in order, with their insertion index. *)
Fixpoint inserted (rs : list request) : list (item * Z) :=
  match rs with
  | [] => []
  | CreateItem it i :: t => (it, i) :: inserted t
  | _ :: t => inserted t
  end.

Definition last_opt {A} (l : list A) : option A := hd_error (rev l).

Definition grading_mask : string := "questionItem.question.grading".

(** The grading condition of the loop body, as a proposition. *)
Definition graded (quiz_mode : bool) (q : question_data) : Prop :=
  quiz_mode = true /\ correct_answers q <> [] /\ (type q = "MCQ" \/ type q = "CHECKBOX").

(** Text with the given lines, as [parse_questions] receives it. *)
Definition text_of_lines (ls : list string) : string :=
  Py.join (String Py.newline EmptyString) ls.

(** The characters of a string. *)
Definition chars (s : string) : list ascii := list_ascii_of_string s.

(** A matcher whose remainders only use characters of its input. *)
Definition shrinking (m : matcher) : Prop :=
  forall s r, In r (m s) -> incl (chars r) (chars s).

(* ------------------------------------------------------------------ *)
(** ** The input and submission steps of [main]

    Widgets are inputs of the model: [chosen i] is the value returned by the
    [st.number_input] of question [i] ("points_" ++ i), and the
    "Create Google Form Now" button is taken as pressed. *)

(** [questions[i]["points"] = ...] for one question *)
Definition set_points (q : question_data) (p : Z) : question_data :=
  {| question := question q; type := type q; options := options q;
     correct_answers := correct_answers q; points := p;
     description := description q |}.

(** The [for i, q in enumerate(questions)] loop, as far as it changes the
    questions: the widget value in quiz mode, 0 otherwise. *)
Fixpoint override_points_from (quiz_mode : bool) (chosen : nat -> Z) (i : nat)
    (qs : list question_data) : list question_data :=
  match qs with
  | [] => []
  | q :: t => set_points q (if quiz_mode then chosen i else 0%Z)
              :: override_points_from quiz_mode chosen (S i) t
  end.

Definition override_points (quiz_mode : bool) (chosen : nat -> Z)
    (qs : list question_data) : list question_data :=
  override_points_from quiz_mode chosen 0 qs.

(** [content] of an uploaded .docx file:
    ["
".join(p.text for p in doc.paragraphs if p.text.strip())] *)
Definition docx_content (paragraphs : list string) : string :=
  Py.join (String Py.newline EmptyString)
          (filter (fun p => negb (String.eqb (Py.strip p) "")) paragraphs).

(** [st.number_input(min_value=0, max_value=100, value=v)] raises
    (StreamlitValueBelowMinError / StreamlitValueAboveMaxError) unless the
    default [v] lies between its bounds. *)
Definition number_input_accepts (v : Z) : bool := (0 <=? v)%Z && (v <=? 100)%Z.

(** In quiz mode the preview loop calls [st.number_input] with
    [value=questions[i].get("points", 1)], the parsed points of question
    [i] (only questions before [i] have been overwritten); the first
    rejected value raises and ends the script run before the submit
    button. *)
Definition points_inputs_ok (quiz_mode : bool) (questions : list question_data) : bool :=
  negb quiz_mode || forallb (fun q => number_input_accepts (points q)) questions.

(** From [if content:] to [create_google_form(creds, questions, shuffle,
    form_id or None, quiz_mode)]; [None] when nothing is submitted (empty
    content, the "No valid questions found" warning, or a points widget
    raising). *)
Definition submit (content : string) (form_id : string) (quiz_mode shuffle : bool)
    (chosen : nat -> Z) : option form_call :=
  if String.eqb content "" then None
  else
    let questions := parse_questions content in
    match questions with
    | [] => None
    | _ :: _ =>
        if negb (points_inputs_ok quiz_mode questions) then None else
        let questions := override_points quiz_mode chosen questions in
        Some (create_google_form questions shuffle
                (if String.eqb form_id "" then None else Some form_id) quiz_mode)
    end.

(** A line that the option loop reads as a points directive: it contains
    "POINTS:" but neither "CORRECT ANSWER" nor "TYPE:", which are tested
    before it. *)
Definition points_directive (l : string) : bool :=
  let u := Py.upper (Py.strip l) in
  Py.contains u "POINTS:" && negb (Py.contains u "CORRECT ANSWER")
  && negb (Py.contains u "TYPE:").

(** [int] of the text after the last colon, 0 when [int] raises. *)
Definition directive_points (l : string) : Z :=
  match Py.int_of_string (Py.strip (Py.after_last_colon (Py.strip l))) with
  | Some n => n
  | None => 0%Z
  end.

(** The value of the last points directive among [ls], 0 if there is none. *)
Definition last_points_directive (ls : list string) : Z :=
  fold_left (fun acc l => if points_directive l then directive_points l else acc) ls 0%Z.

(* ------------------------------------------------------------------ *)
(** ** Lemmas on [create_google_form] *)

Section Compiler.

Variables (shuffle quiz_mode : bool).

(** The requests appended for [q] by one loop iteration. *)
Definition emitted (q : question_data) : list request :=
  form_loop_body shuffle quiz_mode [] q.

Lemma form_loop_body_app (acc : list request) (q : question_data) :
  form_loop_body shuffle quiz_mode acc q = acc ++ emitted q.
Proof.
  unfold emitted, form_loop_body.
  destruct (_ && _ && _); rewrite <- ?app_assoc; reflexivity.
Qed.

Lemma fold_form_loop (qs : list question_data) (acc : list request) :
  fold_left (form_loop_body shuffle quiz_mode) qs acc = acc ++ flat_map emitted qs.
Proof.
  revert acc; induction qs as [|q qs IH]; intros acc; simpl.
  - now rewrite app_nil_r.
  - rewrite IH, form_loop_body_app, app_assoc; reflexivity.
Qed.

Lemma requests_decompose (qs : list question_data) (form_id : option string) :
  requests (create_google_form qs shuffle form_id quiz_mode)
  = (if quiz_mode then [UpdateSettings true "quizSettings.isQuiz"] else [])
    ++ flat_map emitted (rev qs).
Proof. unfold create_google_form; simpl; apply fold_form_loop. Qed.

(** Each iteration emits its [createItem] first, then at most a grading
    request, exactly under [graded]. *)
Lemma emitted_shape (q : question_data) :
  exists g, emitted q = CreateItem (item_of shuffle q) 0%Z :: g /\
  ((graded quiz_mode q /\
    g = [UpdateItem 0%Z (correct_answers q)
           (if Z.eqb (points q) 0 then 1%Z else points q) grading_mask])
   \/ (~ graded quiz_mode q /\ g = [])).
Proof.
  unfold emitted, form_loop_body, graded, grading_mask; simpl.
  destruct quiz_mode eqn:Hq; simpl.
  - destruct (correct_answers q) as [|a l] eqn:Hc; simpl.
    + eexists; split; [reflexivity|]. right; split; [|reflexivity].
      intros (_ & H & _); congruence.
    + destruct (String.eqb (type q) "MCQ") eqn:Hm;
        [|destruct (String.eqb (type q) "CHECKBOX") eqn:Hk]; simpl.
      * eexists; split; [reflexivity|]. left; split; [|reflexivity].
        apply String.eqb_eq in Hm. repeat split; auto; discriminate.
      * eexists; split; [reflexivity|]. left; split; [|reflexivity].
        apply String.eqb_eq in Hk. repeat split; auto; discriminate.
      * eexists; split; [reflexivity|]. right; split; [|reflexivity].
        intros (_ & _ & [H|H]); apply String.eqb_eq in H; congruence.
  - eexists; split; [reflexivity|]. right; split; [|reflexivity].
    intros (H & _); discriminate.
Qed.

Lemma inserted_app (a b : list request) : inserted (a ++ b) = inserted a ++ inserted b.
Proof.
  induction a as [|r a IH]; simpl; [reflexivity|].
  destruct r; simpl; rewrite ?IH; reflexivity.
Qed.

Lemma inserted_emitted (q : question_data) :
  inserted (emitted q) = [(item_of shuffle q, 0%Z)].
Proof.
  destruct (emitted_shape q) as (g & -> & [(_ & ->) | (_ & ->)]); reflexivity.
Qed.

End Compiler.

Lemma in_flat_map_emitted (sh qm : bool) (qs : list question_data) (r : request) :
  In r (flat_map (emitted sh qm) qs) ->
  exists q, In q qs /\ In r (emitted sh qm q).
Proof.
  intros H; apply in_flat_map in H; destruct H as (q & Hq & Hr); eauto.
Qed.

(** C1: the [createItem] requests are the records in reverse input order,
    each at index 0: the first one is built from the last record and the last
    one from the first record. *)
Theorem create_items_reverse_order (R : list question_data) (shuffle : bool)
    (form_id : option string) (quiz_mode : bool) :
  let ins := inserted (requests (create_google_form R shuffle form_id quiz_mode)) in
  ins = map (fun q => (item_of shuffle q, 0%Z)) (rev R) /\
  hd_error ins = option_map (fun q => (item_of shuffle q, 0%Z)) (last_opt R) /\
  last_opt ins = option_map (fun q => (item_of shuffle q, 0%Z)) (hd_error R).
Proof.
  intros ins.
  assert (Hins : ins = map (fun q => (item_of shuffle q, 0%Z)) (rev R)).
  { unfold ins; rewrite requests_decompose, inserted_app.
    replace (inserted (if quiz_mode then _ else [])) with (@nil (item * Z))
      by (destruct quiz_mode; reflexivity).
    simpl. induction (rev R) as [|q qs IH]; simpl; [reflexivity|].
    rewrite inserted_app, inserted_emitted, IH; reflexivity. }
  split; [exact Hins|]. rewrite Hins; unfold last_opt.
  split.
  - destruct (rev R) as [|q qs]; reflexivity.
  - rewrite <- map_rev, rev_involutive.
    destruct R as [|q qs]; reflexivity.
Qed.

(** C2 (counterexample): a parsed [DROPDOWN] question with a correct answer,
    compiled in quiz mode, gets no grading request after its [createItem]. *)
Lemma dropdown_question_not_graded :
  exists q,
    parse_questions (text_of_lines
      ["1. Pick one"; "A) x"; "B) y"; "CORRECT ANSWER: A"; "TYPE: DROPDOWN"]) = [q] /\
    type q = "DROPDOWN" /\ correct_answers q = ["A) x"] /\
    requests (create_google_form [q] false None true)
    = [UpdateSettings true "quizSettings.isQuiz"; CreateItem (item_of false q) 0%Z].
Proof. eexists; vm_compute; repeat split; reflexivity. Qed.

(** C2 (amended): after the optional quiz-settings request, the requests are
    one segment per record in reverse input order; each segment is the
    record's [createItem] followed by a grading [updateItem] exactly when
    quiz mode is on, the record has a correct answer and its type is [MCQ]
    or [CHECKBOX], and by nothing otherwise. *)
Theorem grading_follows_insert_iff (R : list question_data) (shuffle : bool)
    (form_id : option string) (quiz_mode : bool) :
  exists segments,
    requests (create_google_form R shuffle form_id quiz_mode)
    = (if quiz_mode then [UpdateSettings true "quizSettings.isQuiz"] else [])
      ++ concat segments /\
    Forall2 (fun q seg =>
      exists g, seg = CreateItem (item_of shuffle q) 0%Z :: g /\
        ((graded quiz_mode q /\
          g = [UpdateItem 0%Z (correct_answers q)
                 (if Z.eqb (points q) 0 then 1%Z else points q) grading_mask])
         \/ (~ graded quiz_mode q /\ g = [])))
      (rev R) segments.
Proof.
  exists (map (emitted shuffle quiz_mode) (rev R)).
  rewrite requests_decompose, flat_map_concat_map. split; [reflexivity|].
  induction (rev R) as [|q qs IH]; simpl; constructor; [|exact IH].
  apply emitted_shape.
Qed.

(** C7 (counterexample): "POINTS: -3" gives a graded question whose grading
    request carries the point value -3. *)
Lemma negative_points_reach_grading :
  exists q,
    parse_questions (text_of_lines
      ["1. Pick one"; "A) x"; "CORRECT ANSWER: A"; "POINTS: -3"]) = [q] /\
    points q = (-3)%Z /\
    In (UpdateItem 0%Z ["A) x"] (-3)%Z grading_mask)
       (requests (create_google_form [q] false None true)).
Proof.
  eexists; split; [vm_compute; reflexivity|]. split; [reflexivity|].
  vm_compute; tauto.
Qed.

(** C7 (amended): every grading request belongs to a graded record of the
    input; its point value is the record's points when they are non-zero and
    1 when they are zero, so it is never 0 (a negative value passes through). *)
Theorem grading_point_value (R : list question_data) (shuffle : bool)
    (form_id : option string) (quiz_mode : bool)
    (i : Z) (ans : list string) (pv : Z) (mask : string)
    (Hin : In (UpdateItem i ans pv mask)
              (requests (create_google_form R shuffle form_id quiz_mode))) :
  exists q, In q R /\ graded quiz_mode q /\ ans = correct_answers q /\
    pv = (if Z.eqb (points q) 0 then 1%Z else points q) /\ pv <> 0%Z.
Proof.
  rewrite requests_decompose in Hin. apply in_app_or in Hin.
  destruct Hin as [Hin|Hin].
  { destruct quiz_mode; simpl in Hin; [destruct Hin as [H|[]]; discriminate | contradiction]. }
  apply in_flat_map_emitted in Hin. destruct Hin as (q & Hq & Hr).
  apply in_rev in Hq.
  destruct (emitted_shape shuffle quiz_mode q) as (g & Heq & [(Hg & ->) | (_ & ->)]);
    rewrite Heq in Hr; simpl in Hr.
  - destruct Hr as [H|[H|[]]]; [discriminate|]. injection H as <- <- <- <-.
    exists q; split; [exact Hq|]. split; [exact Hg|].
    split; [reflexivity|]. split; [reflexivity|].
    destruct (Z.eqb_spec (points q) 0); lia.
  - destruct Hr as [H|[]]; discriminate.
Qed.

Lemma item_of_required (shuffle : bool) (q : question_data) :
  required (item_of shuffle q) = true.
Proof.
  unfold item_of; destruct (split_first_newline (question q)) as [[a b]|]; reflexivity.
Qed.

(** C10: every [createItem] request marks its question as required. *)
Theorem created_items_required (R : list question_data) (shuffle : bool)
    (form_id : option string) (quiz_mode : bool) (it : item) (i : Z)
    (Hin : In (CreateItem it i)
              (requests (create_google_form R shuffle form_id quiz_mode))) :
  required it = true.
Proof.
  rewrite requests_decompose in Hin. apply in_app_or in Hin.
  destruct Hin as [Hin|Hin].
  { destruct quiz_mode; simpl in Hin; [destruct Hin as [H|[]]; discriminate | contradiction]. }
  apply in_flat_map_emitted in Hin. destruct Hin as (q & _ & Hr).
  destruct (emitted_shape shuffle quiz_mode q) as (g & Heq & [(_ & ->) | (_ & ->)]);
    rewrite Heq in Hr; simpl in Hr.
  - destruct Hr as [H|[H|[]]]; [|discriminate]. injection H as <- _.
    apply item_of_required.
  - destruct Hr as [H|[]]. injection H as <- _. apply item_of_required.
Qed.

(* ------------------------------------------------------------------ *)
(** ** Lemmas on [parse_questions] *)

(** Case analysis on the branches of one iteration of the option loop. *)
Ltac collect_step_cases :=
  unfold collect_step;
  repeat match goal with
  | |- context [if ?b then _ else _] => destruct b eqn:?
  | |- context [match match_lettered ?l with _ => _ end] =>
      destruct (match_lettered l) as [[? ?]|] eqn:?
  end; simpl.

Lemma answers_for_letters_incl (letters opts : list string) :
  incl (answers_for_letters letters opts) opts.
Proof.
  intros a Ha. unfold answers_for_letters in Ha.
  apply in_flat_map in Ha. destruct Ha as (l & _ & Ha).
  apply filter_In in Ha. tauto.
Qed.

(** The second loop keeps every correct answer among the options. *)
Lemma collect_step_incl (st : collect_state) (l : string) :
  incl (cs_correct_answers st) (cs_options st) ->
  incl (cs_correct_answers (collect_step st l)) (cs_options (collect_step st l)).
Proof.
  intros H. collect_step_cases; auto;
    try (apply incl_app; [ | apply answers_for_letters_incl]; exact H);
    apply incl_app; try (apply incl_appl; exact H);
    intros x Hx; simpl in Hx; intuition subst; apply in_or_app; simpl; auto.
Qed.

Lemma fold_collect_incl (lines : list string) (st : collect_state) :
  incl (cs_correct_answers st) (cs_options st) ->
  let st' := fold_left collect_step lines st in
  incl (cs_correct_answers st') (cs_options st').
Proof.
  revert st; induction lines as [|l lines IH]; intros st H; simpl; auto.
  apply IH, collect_step_incl, H.
Qed.

Lemma in_parse_questions (text : string) (q : question_data) :
  In q (parse_questions text) ->
  exists block, In block (split_blocks (Py.strip text)) /\ parse_block block = Some q.
Proof.
  unfold parse_questions; intros H. apply in_flat_map in H.
  destruct H as (b & Hb & Hq). destruct (parse_block b) as [q'|] eqn:E; simpl in Hq;
    [|contradiction].
  destruct Hq as [<-|[]]. eauto.
Qed.

(** C4: every correct answer of a parsed question is one of its options. *)
Theorem correct_answers_subset_options (text : string) (q : question_data) (a : string)
    (Hq : In q (parse_questions text)) (Ha : In a (correct_answers q)) :
  In a (options q).
Proof.
  apply in_parse_questions in Hq. destruct Hq as (block & _ & Hb).
  unfold parse_block in Hb.
  destruct (Py.split_char Py.newline (Py.strip block)) as [|first after]; [discriminate|].
  destruct (collect_code after) as [[[code_lines rest] hl] ha].
  match type of Hb with
  | context [fold_left collect_step rest ?s0] =>
      pose proof (fold_collect_incl rest s0 (incl_refl _)) as Hinv;
      set (st := fold_left collect_step rest s0) in Hb, Hinv
  end.
  simpl in Hinv.
  match type of Hb with
  | context [if ?c then _ else _] =>
      match c with
      | negb _ && _ && _ && _ => destruct c eqn:Hfb
      end
  end; injection Hb as <-; simpl in Ha |- *.
  - apply andb_true_iff in Hfb as [Hfb _]. apply andb_true_iff in Hfb as [_ Hc].
    destruct (cs_correct_answers st); [contradiction|discriminate].
  - exact (Hinv a Ha).
Qed.

Lemma collect_step_qtype (st : collect_state) (l : string) :
  cs_qtype (collect_step st l) = cs_qtype st \/
  (Py.contains (Py.upper (Py.strip l)) "CORRECT ANSWER" = false /\
   Py.contains (Py.upper (Py.strip l)) "TYPE:" = true /\
   cs_qtype (collect_step st l)
   = Some (Py.upper (Py.strip (Py.after_last_colon (Py.strip l))))).
Proof. collect_step_cases; auto. Qed.

Lemma fold_collect_qtype (rest : list string) (st : collect_state) (t : string) :
  cs_qtype (fold_left collect_step rest st) = Some t ->
  cs_qtype st = Some t \/
  exists l, In l rest /\
            Py.contains (Py.upper (Py.strip l)) "CORRECT ANSWER" = false /\
            Py.contains (Py.upper (Py.strip l)) "TYPE:" = true /\
            t = Py.upper (Py.strip (Py.after_last_colon (Py.strip l))).
Proof.
  revert st; induction rest as [|l rest IH]; intros st H; simpl in H; auto.
  destruct (IH _ H) as [H1 | (l' & Hl' & Hca & Hc & Ht)].
  - destruct (collect_step_qtype st l) as [E | (Hca & Hc & E)]; rewrite E in H1; auto.
    right; exists l; split; [left; reflexivity|]. split; [exact Hca|].
    split; [exact Hc|]. congruence.
  - right; exists l'; split; [right; exact Hl'|]; auto.
Qed.

Lemma collect_code_rest (after code_lines rest : list string) (hl ha : bool) :
  collect_code after = (code_lines, rest, hl, ha) -> incl rest after.
Proof.
  revert code_lines rest hl ha.
  induction after as [|l after IH]; intros code_lines rest hl ha H; simpl in H.
  - injection H as _ <- _ _. apply incl_refl.
  - repeat match type of H with
           | context [if ?b then _ else _] => destruct b
           end;
      try (injection H as _ <- _ _; apply incl_refl).
    destruct (collect_code after) as [[[cl rm] hl'] ha'] eqn:E.
    injection H as _ <- _ _. apply incl_tl, (IH _ _ _ _ eq_refl).
Qed.

(** C9 (counterexample): "TYPE: SHORT" on a block with a lettered option
    gives a [SHORT] question that keeps its option. *)
Lemma declared_short_keeps_options :
  parse_questions (text_of_lines ["1. Q"; "A) x"; "TYPE: SHORT"])
  = [{| question := "Q"; type := "SHORT"; options := ["A) x"];
        correct_answers := []; points := 0%Z; description := "" |}].
Proof. vm_compute; reflexivity. Qed.

(** C9 (amended): a parsed question with options has type [MCQ] or
    [CHECKBOX], unless its type was set by a "TYPE:" directive of its own
    block: a line after the block's title line that contains "TYPE:" and
    not "CORRECT ANSWER"; the type is then that line's upper-cased value. *)
Theorem options_only_for_choice_or_declared (text : string) (q : question_data)
    (Hq : In q (parse_questions text)) (Hopt : options q <> []) :
  type q = "MCQ" \/ type q = "CHECKBOX" \/
  exists block first after l,
    In block (split_blocks (Py.strip text)) /\ parse_block block = Some q /\
    Py.split_char Py.newline (Py.strip block) = first :: after /\
    In l after /\
    Py.contains (Py.upper (Py.strip l)) "CORRECT ANSWER" = false /\
    Py.contains (Py.upper (Py.strip l)) "TYPE:" = true /\
    type q = Py.upper (Py.strip (Py.after_last_colon (Py.strip l))).
Proof.
  apply in_parse_questions in Hq. destruct Hq as (block & Hblock & Hb).
  pose proof Hb as Hb0.
  unfold parse_block in Hb.
  destruct (Py.split_char Py.newline (Py.strip block)) as [|first after] eqn:Hlines;
    [discriminate|].
  destruct (collect_code after) as [[[code_lines rest] hl] ha] eqn:Hcode.
  pose proof (collect_code_rest _ _ _ _ _ Hcode) as Hrest.
  match type of Hb with
  | context [fold_left collect_step rest ?s0] =>
      pose proof (fold_collect_qtype rest s0) as Hqt;
      set (st := fold_left collect_step rest s0) in Hb, Hqt
  end.
  match type of Hb with
  | context [if ?c then _ else _] =>
      match c with
      | negb _ && _ && _ && _ => destruct c eqn:Hfb
      end
  end; injection Hb as <-; simpl in Hopt |- *; [congruence|].
  destruct (qtype_set (cs_qtype st)) as [t|] eqn:Ht.
  - right; right. exists block.
    unfold qtype_set in Ht.
    destruct (cs_qtype st) as [t'|] eqn:Hst; [|discriminate].
    destruct (String.eqb t' "") eqn:He; [discriminate|]. injection Ht as <-.
    destruct (Hqt t' eq_refl) as [H0 | (l & Hl & Hca & Hc & ->)]; [discriminate|].
    exists first, after, l.
    split; [exact Hblock|]. split; [exact Hb0|]. split; [exact Hlines|].
    split; [apply Hrest, Hl|]. split; [exact Hca|]. split; [exact Hc | reflexivity].
  - destruct (cs_options st); [contradiction|].
    destruct (1 <? length (cs_correct_answers st))%nat; auto.
Qed.

(** C3 (counterexample): on Example 2 the answer tokens "Apple" and
    "Banana" select no option, and the question is not a [CHECKBOX] one. *)
Lemma fruits_example_not_checkbox :
  ~ exists q,
      parse_questions (text_of_lines
        ["1. Pick fruits"; "* Apple"; "* Banana"; "CORRECT ANSWER: Apple,Banana"])
      = [q] /\
      type q = "CHECKBOX" /\ options q = ["Apple"; "Banana"] /\
      In "Apple" (correct_answers q) /\ In "Banana" (correct_answers q).
Proof.
  vm_compute. intros (q & H & Ht & _). injection H as <-. discriminate.
Qed.

(** C3 (amended): Example 2 parses to one [SHORT] question with no options
    and no correct answers, whose description lists the two items. *)
Theorem fruits_example_parse :
  parse_questions (text_of_lines
    ["1. Pick fruits"; "* Apple"; "* Banana"; "CORRECT ANSWER: Apple,Banana"])
  = [{| question := "Pick fruits"; type := "SHORT"; options := [];
        correct_answers := []; points := 0%Z;
        description := text_of_lines ["- Apple"; "- Banana"] |}].
Proof. vm_compute; reflexivity. Qed.

Lemma split_char_nonempty (sep : ascii) (s : string) : Py.split_char sep s <> [].
Proof.
  destruct s as [|c r]; simpl; [discriminate|].
  destruct (Ascii.eqb c sep); [discriminate|].
  destruct (Py.split_char sep r); discriminate.
Qed.

(** The [if not lines: continue] guard never fires. *)
Lemma parse_block_some (block : string) : exists q, parse_block block = Some q.
Proof.
  unfold parse_block.
  pose proof (split_char_nonempty Py.newline (Py.strip block)) as Hne.
  destruct (Py.split_char Py.newline (Py.strip block)) as [|first after]; [congruence|].
  destruct (collect_code after) as [[[? ?] ?] ?].
  match goal with
  | |- context [if ?c then _ else _] =>
      match c with
      | negb _ && _ && _ && _ => destruct c
      end
  end; eexists; reflexivity.
Qed.

(** Every block of the split text gives one question. *)
Lemma parse_questions_length (text : string) :
  length (parse_questions text) = length (split_blocks (Py.strip text)).
Proof.
  unfold parse_questions.
  induction (split_blocks (Py.strip text)) as [|b bs IH]; simpl; [reflexivity|].
  destruct (parse_block_some b) as [q E]. rewrite E; simpl. now rewrite IH.
Qed.

(** C5 (the code at the failing input): a whitespace-only text is one empty
    block, and it is returned as a question with an empty prompt. *)
Theorem blank_text_gives_empty_question :
  parse_questions "   "
  = [{| question := ""; type := "SHORT"; options := [];
        correct_answers := []; points := 0%Z; description := "" |}].
Proof. vm_compute; reflexivity. Qed.

(** C6 (counterexample): on Example 3 the description is empty, so it
    renders neither "Red" nor "Blue". *)
Lemma color_example_no_bullets :
  ~ exists q,
      parse_questions (text_of_lines ["1. Name a color"; "- Red"; "- Blue"]) = [q] /\
      type q = "SHORT" /\ options q = [] /\
      Py.contains (description q) "Red" = true /\
      Py.contains (description q) "Blue" = true.
Proof.
  vm_compute. intros (q & H & _ & _ & Hr & _). injection H as <-. discriminate.
Qed.

(** C6 (amended): Example 3 parses to one [SHORT] question with no options
    and an empty description: the "- " lines are read as description text
    and dropped because they contain no code marker. *)
Theorem color_example_parse :
  parse_questions (text_of_lines ["1. Name a color"; "- Red"; "- Blue"])
  = [{| question := "Name a color"; type := "SHORT"; options := [];
        correct_answers := []; points := 0%Z; description := "" |}].
Proof. vm_compute; reflexivity. Qed.

(** The record returned by the loop body, in terms of the state left by the
    option loop. *)
Lemma parse_block_inv (block : string) (q : question_data) :
  parse_block block = Some q ->
  exists first after code_lines rest hl ha,
    Py.split_char Py.newline (Py.strip block) = first :: after /\
    collect_code after = (code_lines, rest, hl, ha) /\
    let st := fold_left collect_step rest
                {| cs_options := []; cs_correct_answers := []; cs_qtype := None;
                   cs_points := 0%Z; cs_has_lettered_option := hl;
                   cs_has_any_options := ha |} in
    correct_answers q = cs_correct_answers st /\ points q = cs_points st /\
    ((type q = "SHORT" /\ options q = [] /\ cs_correct_answers st = [])
     \/ (options q = cs_options st /\
         type q = match qtype_set (cs_qtype st) with
                  | Some t => t
                  | None =>
                      match cs_options st with
                      | _ :: _ => if (1 <? length (cs_correct_answers st))%nat
                                  then "CHECKBOX" else "MCQ"
                      | [] => "SHORT"
                      end
                  end)).
Proof.
  unfold parse_block. intros Hb.
  destruct (Py.split_char Py.newline (Py.strip block)) as [|first after] eqn:Hl;
    [discriminate|].
  destruct (collect_code after) as [[[code_lines rest] hl] ha] eqn:Hc.
  exists first, after, code_lines, rest, hl, ha.
  split; [first [reflexivity | assumption]|]. split; [first [reflexivity | assumption]|].
  match type of Hb with
  | context [fold_left collect_step rest ?s0] =>
      set (st := fold_left collect_step rest s0) in Hb |- *
  end.
  match type of Hb with
  | context [if ?c then _ else _] =>
      match c with
      | negb _ && _ && _ && _ => destruct c eqn:Hfb
      end
  end; injection Hb as <-; simpl; (split; [reflexivity|]); (split; [reflexivity|]).
  - left. split; [reflexivity|]. split; [reflexivity|].
    apply andb_true_iff in Hfb as [Hfb _]. apply andb_true_iff in Hfb as [_ Hc'].
    destruct (cs_correct_answers st); [reflexivity|discriminate].
  - right. split; reflexivity.
Qed.

Lemma collect_code_split (after code_lines rest : list string) (hl ha : bool) :
  collect_code after = (code_lines, rest, hl, ha) ->
  after = code_lines ++ rest /\
  forall l, In l code_lines -> Py.contains (Py.upper (Py.strip l)) "POINTS:" = false.
Proof.
  revert code_lines rest hl ha.
  induction after as [|l after IH]; intros code_lines rest hl ha H; simpl in H.
  - injection H as <- <- _ _. split; [reflexivity | intros _ []].
  - repeat match type of H with
           | context [if ?b then _ else _] => destruct b eqn:?
           end;
      try (injection H as <- <- _ _; split; [reflexivity | intros _ []]).
    destruct (collect_code after) as [[[cl rm] hl'] ha'] eqn:E.
    injection H as <- <- _ _.
    destruct (IH _ _ _ _ eq_refl) as [-> Hcl]. split; [reflexivity|].
    intros l' [<-|Hl']; [|apply Hcl, Hl'].
    match goal with
    | H : (Py.contains ?u "TYPE:" || Py.contains ?u "POINTS:") = false |- _ =>
        apply orb_false_iff in H; apply H
    end.
Qed.

Lemma collect_step_points (st : collect_state) (l : string) :
  cs_points (collect_step st l)
  = if points_directive l then directive_points l else cs_points st.
Proof.
  unfold collect_step, points_directive, directive_points. cbv zeta.
  destruct (String.eqb (Py.strip l) "") eqn:E0.
  { apply String.eqb_eq in E0. rewrite E0. reflexivity. }
  destruct (Py.contains (Py.upper (Py.strip l)) "CORRECT ANSWER");
  destruct (Py.contains (Py.upper (Py.strip l)) "TYPE:");
  destruct (Py.contains (Py.upper (Py.strip l)) "POINTS:"); simpl; try reflexivity.
  all: repeat match goal with
       | |- context [if ?b then _ else _] => destruct b
       | |- context [match match_lettered ?x with _ => _ end] =>
           destruct (match_lettered x) as [[? ?]|]
       end; reflexivity.
Qed.


Lemma fold_collect_points (rest : list string) (st : collect_state) :
  cs_points (fold_left collect_step rest st)
  = fold_left (fun acc l => if points_directive l then directive_points l else acc)
      rest (cs_points st).
Proof.
  revert st; induction rest as [|l rest IH]; intros st; simpl; [reflexivity|].
  rewrite IH, collect_step_points. reflexivity.
Qed.

(** C8 (counterexample): a "POINTS:" whose final-colon text is the integer 5
    leaves the points at 0 when it sits on the title line, or on a line that
    also holds "TYPE:" (that line sets the type to "5" instead). *)
Lemma points_text_not_directive :
  Py.int_of_string (Py.strip (Py.after_last_colon "1. Q POINTS: 5")) = Some 5%Z /\
  parse_questions (text_of_lines ["1. Q POINTS: 5"])
  = [{| question := "Q POINTS: 5"; type := "SHORT"; options := [];
        correct_answers := []; points := 0%Z; description := "" |}] /\
  Py.int_of_string (Py.strip (Py.after_last_colon "TYPE: LONG POINTS: 5")) = Some 5%Z /\
  parse_questions (text_of_lines ["1. Q"; "TYPE: LONG POINTS: 5"])
  = [{| question := "Q"; type := "5"; options := [];
        correct_answers := []; points := 0%Z; description := "" |}].
Proof. vm_compute; repeat split. Qed.

(** C8 (amended): the points of a parsed question are those of the last
    points directive of its block after the title line (a line containing
    "POINTS:" but neither "CORRECT ANSWER" nor "TYPE:"): [int] of the text
    after that line's last colon, or 0 when [int] raises, as on
    "POINTS: five"; with no such line they are 0.  The parser is total:
    no directive makes it fail. *)
Theorem points_from_last_directive (text : string) (q : question_data)
    (Hq : In q (parse_questions text)) :
  exists block first after,
    In block (split_blocks (Py.strip text)) /\ parse_block block = Some q /\
    Py.split_char Py.newline (Py.strip block) = first :: after /\
    points q = last_points_directive after.
Proof.
  apply in_parse_questions in Hq. destruct Hq as (block & Hblock & Hb).
  pose proof Hb as Hb0. apply parse_block_inv in Hb.
  destruct Hb as (first & after & cl & rest & hl & ha & Hl & Hc & _ & Hp & _).
  exists block, first, after. split; [exact Hblock|]. split; [exact Hb0|].
  split; [exact Hl|].
  rewrite Hp, fold_collect_points. simpl cs_points.
  destruct (collect_code_split _ _ _ _ _ Hc) as [-> Hcl].
  unfold last_points_directive. rewrite fold_left_app. f_equal.
  clear -Hcl. induction cl as [|l cl IH]; simpl; [reflexivity|].
  replace (points_directive l) with false.
  - apply IH. intros l' Hl'. apply Hcl. right; exact Hl'.
  - unfold points_directive. rewrite (Hcl l (or_introl eq_refl)). reflexivity.
Qed.

(** A non-numeric points value, through the whole parser. *)
Lemma points_five_parse :
  parse_questions (text_of_lines ["1. Q"; "POINTS: five"])
  = [{| question := "Q"; type := "SHORT"; options := [];
        correct_answers := []; points := 0%Z; description := "" |}].
Proof. vm_compute; reflexivity. Qed.

(* ------------------------------------------------------------------ *)
(** ** Witnesses: the theorems with hypotheses, applied to concrete inputs *)

(** C4 on Example 1 of the spec. *)
Lemma correct_answers_subset_options_witness :
  In {| question := "What is 2+2?"; type := "MCQ"; options := ["A) 3"; "B) 4"];
        correct_answers := ["B) 4"]; points := 5%Z; description := "" |}
     (parse_questions (text_of_lines
        ["1. What is 2+2?"; "A) 3"; "B) 4"; "CORRECT ANSWER: B"; "POINTS: 5"])) /\
  In "B) 4" ["B) 4"] /\ In "B) 4" ["A) 3"; "B) 4"].
Proof.
  assert (H1 : In {| question := "What is 2+2?"; type := "MCQ";
                     options := ["A) 3"; "B) 4"]; correct_answers := ["B) 4"];
                     points := 5%Z; description := "" |}
                  (parse_questions (text_of_lines
                     ["1. What is 2+2?"; "A) 3"; "B) 4"; "CORRECT ANSWER: B"; "POINTS: 5"])))
    by (vm_compute; left; reflexivity).
  assert (H2 : In "B) 4" ["B) 4"]) by (simpl; left; reflexivity).
  exact (conj H1 (conj H2 (correct_answers_subset_options _ _ "B) 4" H1 H2))).
Defined.

(** C7 (amended) on one graded question with no points. *)
Lemma grading_point_value_witness :
  In (UpdateItem 0%Z ["A) x"] 1%Z grading_mask)
     (requests (create_google_form
        [{| question := "Q"; type := "MCQ"; options := ["A) x"; "B) y"];
            correct_answers := ["A) x"]; points := 0%Z; description := "" |}]
        false None true)) /\
  exists q, In q [{| question := "Q"; type := "MCQ"; options := ["A) x"; "B) y"];
                     correct_answers := ["A) x"]; points := 0%Z; description := "" |}] /\
    graded true q /\ ["A) x"] = correct_answers q /\
    1%Z = (if Z.eqb (points q) 0 then 1%Z else points q) /\ 1%Z <> 0%Z.
Proof.
  assert (H : In (UpdateItem 0%Z ["A) x"] 1%Z grading_mask)
     (requests (create_google_form
        [{| question := "Q"; type := "MCQ"; options := ["A) x"; "B) y"];
            correct_answers := ["A) x"]; points := 0%Z; description := "" |}]
        false None true)))
    by (vm_compute; right; right; left; reflexivity).
  exact (conj H (grading_point_value _ _ _ _ _ _ _ _ H)).
Defined.

(** C8 (amended) on "POINTS: five" after a valid "POINTS: 5". *)
Lemma points_from_last_directive_witness :
  let q := {| question := "Q"; type := "SHORT"; options := [];
              correct_answers := []; points := 0%Z; description := "" |} in
  let text := text_of_lines ["1. Q"; "POINTS: 5"; "POINTS: five"] in
  In q (parse_questions text) /\
  exists block first after,
    In block (split_blocks (Py.strip text)) /\ parse_block block = Some q /\
    Py.split_char Py.newline (Py.strip block) = first :: after /\
    points q = last_points_directive after.
Proof.
  intros q text.
  assert (H : In q (parse_questions text)) by (vm_compute; left; reflexivity).
  exact (conj H (points_from_last_directive text q H)).
Defined.

(** C9 (amended) on a question whose type is declared "SHORT". *)
Lemma options_only_for_choice_or_declared_witness :
  let q := {| question := "Q"; type := "SHORT"; options := ["A) x"];
              correct_answers := []; points := 0%Z; description := "" |} in
  let text := text_of_lines ["1. Q"; "A) x"; "TYPE: SHORT"] in
  type q = "MCQ" \/ type q = "CHECKBOX" \/
  exists block first after l,
    In block (split_blocks (Py.strip text)) /\ parse_block block = Some q /\
    Py.split_char Py.newline (Py.strip block) = first :: after /\
    In l after /\
    Py.contains (Py.upper (Py.strip l)) "CORRECT ANSWER" = false /\
    Py.contains (Py.upper (Py.strip l)) "TYPE:" = true /\
    type q = Py.upper (Py.strip (Py.after_last_colon (Py.strip l))).
Proof.
  intros q text.
  apply (options_only_for_choice_or_declared text q).
  - vm_compute; left; reflexivity.
  - simpl; discriminate.
Defined.

(** C10 on one question. *)
Lemma created_items_required_witness :
  let q := {| question := "Q"; type := "SHORT"; options := [];
              correct_answers := []; points := 0%Z; description := "" |} in
  required (item_of false q) = true.
Proof.
  intros q.
  apply (created_items_required [q] false None false (item_of false q) 0%Z).
  vm_compute; left; reflexivity.
Defined.

(* ------------------------------------------------------------------ *)
(** ** Further properties of [create_google_form] *)

(** Where a grading request comes from (shared by the properties below). *)
Lemma update_item_origin (R : list question_data) (shuffle : bool)
    (form_id : option string) (quiz_mode : bool)
    (i : Z) (ans : list string) (pv : Z) (mask : string) :
  In (UpdateItem i ans pv mask)
     (requests (create_google_form R shuffle form_id quiz_mode)) ->
  exists q, In q R /\ graded quiz_mode q /\ i = 0%Z /\ ans = correct_answers q /\
    pv = (if Z.eqb (points q) 0 then 1%Z else points q) /\ mask = grading_mask.
Proof.
  intros Hin. rewrite requests_decompose in Hin. apply in_app_or in Hin.
  destruct Hin as [Hin|Hin].
  { destruct quiz_mode; simpl in Hin; [destruct Hin as [H|[]]; discriminate | contradiction]. }
  apply in_flat_map_emitted in Hin. destruct Hin as (q & Hq & Hr).
  apply in_rev in Hq.
  destruct (emitted_shape shuffle quiz_mode q) as (g & Heq & [(Hg & ->) | (_ & ->)]);
    rewrite Heq in Hr; simpl in Hr.
  - destruct Hr as [H|[H|[]]]; [discriminate|]. injection H as <- <- <- <-.
    exists q; auto 7.
  - destruct Hr as [H|[]]; discriminate.
Qed.

(** Every request that has a location uses index 0. *)
Theorem requests_at_index_zero (R : list question_data) (shuffle : bool)
    (form_id : option string) (quiz_mode : bool) (r : request)
    (Hin : In r (requests (create_google_form R shuffle form_id quiz_mode))) :
  match r with
  | CreateItem _ i => i = 0%Z
  | UpdateItem i _ _ _ => i = 0%Z
  | UpdateSettings _ _ => True
  end.
Proof.
  destruct r as [b m | it i | i ans pv m]; [exact I | |].
  - rewrite requests_decompose in Hin. apply in_app_or in Hin.
    destruct Hin as [Hin|Hin].
    { destruct quiz_mode; simpl in Hin; [destruct Hin as [H|[]]; discriminate | contradiction]. }
    apply in_flat_map_emitted in Hin. destruct Hin as (q & _ & Hr).
    destruct (emitted_shape shuffle quiz_mode q) as (g & Heq & [(_ & ->) | (_ & ->)]);
      rewrite Heq in Hr; simpl in Hr.
    + destruct Hr as [H|[H|[]]]; [|discriminate]. injection H as _ <-. reflexivity.
    + destruct Hr as [H|[]]. injection H as _ <-. reflexivity.
  - destruct (update_item_origin _ _ _ _ _ _ _ _ Hin) as (q & _ & _ & -> & _). reflexivity.
Qed.

(** Without quiz mode the batch is exactly one [createItem] per question,
    last question first: no quiz setting and no grading request. *)
Theorem no_quiz_requests (R : list question_data) (shuffle : bool)
    (form_id : option string) :
  requests (create_google_form R shuffle form_id false)
  = map (fun q => CreateItem (item_of shuffle q) 0%Z) (rev R).
Proof.
  rewrite requests_decompose. cbv iota. rewrite app_nil_l.
  induction (rev R) as [|q qs IH]; cbn [flat_map map]; [reflexivity|].
  rewrite IH. destruct (emitted_shape shuffle false q) as (g & -> & [((H & _) & _) | (_ & ->)]);
    [discriminate | reflexivity].
Qed.

(** In quiz mode the quiz setting is the first request and is sent once. *)
Theorem quiz_setting_first_and_once (R : list question_data) (shuffle : bool)
    (form_id : option string) :
  exists rest,
    requests (create_google_form R shuffle form_id true)
    = UpdateSettings true "quizSettings.isQuiz" :: rest /\
    forall b m, ~ In (UpdateSettings b m) rest.
Proof.
  rewrite requests_decompose. cbv iota. eexists; split; [reflexivity|].
  intros b m Hin. apply in_flat_map_emitted in Hin. destruct Hin as (q & _ & Hr).
  destruct (emitted_shape shuffle true q) as (g & Heq & [(_ & ->) | (_ & ->)]);
    rewrite Heq in Hr; simpl in Hr; intuition discriminate.
Qed.

Lemma replace_newlines_no_newline (s : string) :
  ~ In Py.newline (list_ascii_of_string (Py.replace_newlines s)).
Proof.
  induction s as [|c s IH]; simpl; [tauto|].
  intros [H|H]; [|contradiction].
  destruct (Ascii.eqb c Py.newline) eqn:E.
  - discriminate.
  - subst c. rewrite Ascii.eqb_refl in E. discriminate.
Qed.

(** An item title never contains a newline. *)
Theorem item_title_no_newline (shuffle : bool) (q : question_data) :
  ~ In Py.newline (list_ascii_of_string (title (item_of shuffle q))).
Proof.
  unfold item_of; destruct (split_first_newline (question q)) as [[a b]|];
    apply replace_newlines_no_newline.
Qed.

(* ------------------------------------------------------------------ *)
(** ** Further properties of [parse_questions] *)

Lemma collect_step_no_empty_option (st : collect_state) (l : string) :
  ~ In "" (cs_options st) -> ~ In "" (cs_options (collect_step st l)).
Proof.
  intros H. collect_step_cases; auto;
    intros Hin; apply in_app_or in Hin; destruct Hin as [Hin|[Hin|[]]]; auto.
  all: first [ discriminate
             | match goal with Hin : ?a = "" |- _ => rewrite Hin in * end; discriminate ].
Qed.

(** No parsed question has the empty string among its options. *)
Theorem parsed_options_nonempty_strings (text : string) (q : question_data)
    (Hq : In q (parse_questions text)) :
  ~ In "" (options q).
Proof.
  apply in_parse_questions in Hq. destruct Hq as (block & _ & Hb).
  apply parse_block_inv in Hb.
  destruct Hb as (first & after & cl & rest & hl & ha & _ & _ & _ & _ & [(_ & -> & _) | (-> & _)]);
    [simpl; tauto|].
  match goal with
  | |- context [fold_left collect_step rest ?s0] =>
      assert (G : forall st, ~ In "" (cs_options st) ->
                    ~ In "" (cs_options (fold_left collect_step rest st)))
  end.
  { clear. induction rest as [|l rest IH]; intros st H; simpl; auto.
    apply IH, collect_step_no_empty_option, H. }
  apply G. simpl; tauto.
Qed.

Lemma collect_step_points_keep (st : collect_state) (l : string) :
  Py.contains (Py.upper (Py.strip l)) "POINTS:" = false ->
  cs_points (collect_step st l) = cs_points st.
Proof. intros H. collect_step_cases; congruence. Qed.

(** A block with no "POINTS:" line gives a question worth 0 points. *)
Theorem points_default_zero (block : string) (q : question_data)
    (Hb : parse_block block = Some q)
    (Hno : forall l, In l (Py.split_char Py.newline (Py.strip block)) ->
           Py.contains (Py.upper (Py.strip l)) "POINTS:" = false) :
  points q = 0%Z.
Proof.
  apply parse_block_inv in Hb.
  destruct Hb as (first & after & cl & rest & hl & ha & Hl & Hc & _ & -> & _).
  pose proof (collect_code_rest _ _ _ _ _ Hc) as Hrest.
  match goal with
  | |- cs_points (fold_left collect_step rest ?s0) = _ =>
      assert (G : forall st, cs_points (fold_left collect_step rest st) = cs_points st);
      [ | rewrite G; reflexivity ]
  end.
  assert (Hr : forall l, In l rest ->
               Py.contains (Py.upper (Py.strip l)) "POINTS:" = false).
  { intros l Hl'. apply Hno. rewrite Hl. right. apply Hrest, Hl'. }
  clear -Hr. induction rest as [|l rest IH]; intros st; simpl; [reflexivity|].
  rewrite IH by (intros; apply Hr; right; assumption).
  apply collect_step_points_keep, Hr; left; reflexivity.
Qed.

(** Without a "TYPE:" line the type is inferred: [SHORT] exactly when there
    are no options, [CHECKBOX] exactly when there are at least two correct
    answers, [MCQ] exactly when there are options and at most one correct
    answer. *)
Theorem inferred_type_without_directive (block : string) (q : question_data)
    (Hb : parse_block block = Some q)
    (Hno : forall l, In l (Py.split_char Py.newline (Py.strip block)) ->
           Py.contains (Py.upper (Py.strip l)) "TYPE:" = false) :
  (type q = "SHORT" <-> options q = []) /\
  (type q = "CHECKBOX" <-> (2 <= length (correct_answers q))%nat) /\
  (type q = "MCQ" <-> options q <> [] /\ (length (correct_answers q) <= 1)%nat).
Proof.
  apply parse_block_inv in Hb.
  destruct Hb as (first & after & cl & rest & hl & ha & Hl & Hc & Hca & _ & Hcase).
  pose proof (collect_code_rest _ _ _ _ _ Hc) as Hrest.
  match type of Hca with
  | _ = cs_correct_answers (fold_left collect_step rest ?s0) =>
      pose proof (fold_collect_incl rest s0 (incl_refl _)) as Hinc;
      pose proof (fold_collect_qtype rest s0) as Hqt;
      set (st := fold_left collect_step rest s0) in Hca, Hcase, Hinc, Hqt
  end.
  rewrite Hca.
  destruct Hcase as [(-> & -> & ->) | (-> & ->)].
  - simpl. (split; [|split]); split; intros HH; try discriminate; try reflexivity; try lia.
    destruct HH as [HH _]; contradiction.
  - assert (Hnone : cs_qtype st = None).
    { destruct (cs_qtype st) as [t|] eqn:E; [|reflexivity].
      destruct (Hqt t eq_refl) as [H|(l & Hl' & _ & HT & _)]; [discriminate|].
      rewrite Hno in HT; [discriminate|]. rewrite Hl. right. apply Hrest, Hl'. }
    rewrite Hnone. simpl.
    destruct (cs_options st) as [|o os] eqn:Ho.
    + assert (E : cs_correct_answers st = []).
      { destruct (cs_correct_answers st) as [|a l] eqn:E'; [reflexivity|].
        exfalso. pose proof (Hinc a) as Ha. simpl in Ha. rewrite E', Ho in Ha.
        apply Ha; left; reflexivity. }
      rewrite E; simpl. (split; [|split]); split; intros HH; try discriminate; try reflexivity; try lia.
      destruct HH as [HH _]; contradiction.
    + destruct (1 <? length (cs_correct_answers st))%nat eqn:E.
      * apply Nat.ltb_lt in E.
        (split; [|split]); split; intros HH; try discriminate; try reflexivity; try lia.
      * apply Nat.ltb_ge in E.
        (split; [|split]); split; intros HH; try discriminate; try reflexivity; try lia.
        split; [discriminate | lia].
Qed.

(** Correct answers of a parsed question are among its options (the
    invariant of the option loop, seen from the output). *)
Lemma parsed_correct_incl (text : string) (q : question_data) :
  In q (parse_questions text) -> incl (correct_answers q) (options q).
Proof.
  intros Hq. apply in_parse_questions in Hq. destruct Hq as (block & _ & Hb).
  apply parse_block_inv in Hb.
  destruct Hb as (first & after & cl & rest & hl & ha & _ & _ & Hca & _ & Hcase).
  match type of Hca with
  | _ = cs_correct_answers (fold_left collect_step rest ?s0) =>
      pose proof (fold_collect_incl rest s0 (incl_refl _)) as Hinc
  end.
  rewrite Hca. destruct Hcase as [(_ & _ & ->) | (-> & _)]; [apply incl_nil_l | exact Hinc].
Qed.

Lemma item_of_choice (shuffle : bool) (q : question_data) :
  type q = "MCQ" \/ type q = "CHECKBOX" ->
  exists ct, question_type (item_of shuffle q) = Some (ChoiceQuestion ct (options q) shuffle)
             /\ (ct = "RADIO" \/ ct = "CHECKBOX").
Proof.
  intros Ht. unfold item_of.
  destruct (split_first_newline (question q)) as [[a b]|];
    destruct Ht as [-> | ->]; simpl; eexists; split; eauto.
Qed.

(** On parsed questions, each grading request comes right after the
    [createItem] of a radio or checkbox question, and names a non-empty list
    of values that are all options of that question. *)
Theorem grading_follows_its_choice_item (text : string) (shuffle : bool)
    (form_id : option string) (quiz_mode : bool)
    (i : Z) (ans : list string) (pv : Z) (mask : string)
    (Hin : In (UpdateItem i ans pv mask)
              (requests (create_google_form (parse_questions text)
                                            shuffle form_id quiz_mode))) :
  exists pre post it ct opts,
    requests (create_google_form (parse_questions text) shuffle form_id quiz_mode)
    = pre ++ CreateItem it 0%Z :: UpdateItem i ans pv mask :: post /\
    question_type it = Some (ChoiceQuestion ct opts shuffle) /\
    (ct = "RADIO" \/ ct = "CHECKBOX") /\ ans <> [] /\ incl ans opts.
Proof.
  revert Hin. rewrite requests_decompose. intros Hin.
  apply in_app_or in Hin. destruct Hin as [Hin|Hin].
  { destruct quiz_mode; simpl in Hin; [destruct Hin as [H|[]]; discriminate | contradiction]. }
  apply in_flat_map_emitted in Hin. destruct Hin as (q & Hq & Hr).
  pose proof Hq as Hq'. apply in_rev in Hq'.
  apply in_split in Hq. destruct Hq as (l1 & l2 & Hsplit). rewrite Hsplit.
  destruct (emitted_shape shuffle quiz_mode q) as (g & Heq & [(Hg & ->) | (_ & ->)]);
    rewrite Heq in Hr; simpl in Hr.
  - destruct Hr as [H|[H|[]]]; [discriminate|]. injection H as <- <- <- <-.
    destruct Hg as (_ & Hne & Ht).
    destruct (item_of_choice shuffle q Ht) as (ct & Hit & Hct).
    exists ((if quiz_mode then [UpdateSettings true "quizSettings.isQuiz"] else [])
              ++ flat_map (emitted shuffle quiz_mode) l1),
           (flat_map (emitted shuffle quiz_mode) l2), (item_of shuffle q), ct, (options q).
    split; [|split; [exact Hit|split; [exact Hct|split; [exact Hne|]]]].
    + rewrite flat_map_app. simpl. rewrite Heq. rewrite <- !app_assoc. reflexivity.
    + apply (parsed_correct_incl text q Hq').
  - destruct Hr as [H|[]]; discriminate.
Qed.

Lemma split_char_no_sep (c : ascii) (s x : string) :
  In x (Py.split_char c s) -> ~ In c (chars x).
Proof.
  revert x; induction s as [|d s IH]; intros x Hx; simpl in Hx.
  - destruct Hx as [<-|[]]; simpl; tauto.
  - destruct (Ascii.eqb d c) eqn:E.
    + destruct Hx as [<-|Hx]; [simpl; tauto | exact (IH x Hx)].
    + destruct (Py.split_char c s) as [|h t] eqn:Hs.
      * destruct Hx as [<-|[]]. simpl. intros [H|[]]. subst; rewrite Ascii.eqb_refl in E; discriminate.
      * destruct Hx as [<-|Hx].
        -- simpl. intros [H|H].
           ++ subst; rewrite Ascii.eqb_refl in E; discriminate.
           ++ apply (IH h); [left; reflexivity | exact H].
        -- apply IH; right; exact Hx.
Qed.

Lemma lstrip_chars (s : string) : incl (chars (Py.lstrip s)) (chars s).
Proof.
  induction s as [|c s IH]; simpl; [apply incl_refl|].
  destruct (Py.is_space c); [apply incl_tl, IH | apply incl_refl].
Qed.

Lemma rev_str_chars (s : string) : chars (Py.rev_str s) = rev (chars s).
Proof. unfold chars, Py.rev_str. apply list_ascii_of_string_of_list_ascii. Qed.

Lemma strip_chars (s : string) : incl (chars (Py.strip s)) (chars s).
Proof.
  unfold Py.strip. intros a Ha.
  rewrite rev_str_chars in Ha. apply in_rev in Ha. apply lstrip_chars in Ha.
  rewrite rev_str_chars in Ha. apply in_rev in Ha. apply lstrip_chars in Ha. exact Ha.
Qed.

Lemma m_char_shrinking (p : ascii -> bool) : shrinking (m_char p).
Proof.
  intros [|c s] r H; simpl in H; [contradiction|].
  destruct (p c); simpl in H; [|contradiction].
  destruct H as [<-|[]]. apply incl_tl, incl_refl.
Qed.

Lemma m_star_shrinking (p : ascii -> bool) : shrinking (m_star p).
Proof.
  intros s; induction s as [|c s IH]; intros r H; simpl in H.
  - destruct H as [<-|[]]; apply incl_refl.
  - destruct (p c).
    + apply in_app_or in H. destruct H as [H|[<-|[]]]; [|apply incl_refl].
      apply incl_tl, IH, H.
    + destruct H as [<-|[]]; apply incl_refl.
Qed.

Lemma m_plus_shrinking (p : ascii -> bool) : shrinking (m_plus p).
Proof.
  intros [|c s] r H; simpl in H; [contradiction|].
  destruct (p c); [|contradiction]. apply incl_tl, (m_star_shrinking p s r H).
Qed.

Lemma m_seq_shrinking (m1 m2 : matcher) :
  shrinking m1 -> shrinking m2 -> shrinking (m_seq m1 m2).
Proof.
  intros H1 H2 s r H. unfold m_seq in H. apply in_flat_map in H.
  destruct H as (x & Hx & Hr). eapply incl_tran; [apply (H2 _ _ Hr) | apply (H1 _ _ Hx)].
Qed.

Lemma strip_number_prefix_chars (s : string) :
  incl (chars (strip_number_prefix s)) (chars s).
Proof.
  unfold strip_number_prefix.
  destruct (number_prefix_re s) as [|r rs] eqn:E; [apply incl_refl|].
  assert (Hs : shrinking number_prefix_re).
  { unfold number_prefix_re.
    apply m_seq_shrinking; [apply m_plus_shrinking|].
    apply m_seq_shrinking; [apply m_char_shrinking | apply m_star_shrinking]. }
  apply (Hs s r). rewrite E; left; reflexivity.
Qed.

Lemma split_first_newline_none (s : string) :
  ~ In Py.newline (chars s) -> split_first_newline s = None.
Proof.
  induction s as [|c s IH]; intros H; simpl; [reflexivity|].
  destruct (Ascii.eqb c Py.newline) eqn:E.
  - apply Ascii.eqb_eq in E. subst. exfalso; apply H; left; reflexivity.
  - rewrite IH; [reflexivity|]. intros H'; apply H; right; exact H'.
Qed.

Lemma replace_newlines_id (s : string) :
  ~ In Py.newline (chars s) -> Py.replace_newlines s = s.
Proof.
  induction s as [|c s IH]; intros H; simpl; [reflexivity|].
  destruct (Ascii.eqb c Py.newline) eqn:E.
  - apply Ascii.eqb_eq in E. subst. exfalso; apply H; left; reflexivity.
  - rewrite IH; [reflexivity|]. intros H'; apply H; right; exact H'.
Qed.

(** A parsed prompt has no newline, so the form item of a parsed question
    takes the trimmed prompt as title and the parser's description as its
    description (the title/description split never applies). *)
Theorem parsed_item_title_description (text : string) (shuffle : bool)
    (q : question_data) (Hq : In q (parse_questions text)) :
  ~ In Py.newline (chars (question q)) /\
  title (item_of shuffle q) = Py.strip (question q) /\
  item_description (item_of shuffle q) = description q.
Proof.
  assert (Hnl : ~ In Py.newline (chars (question q))).
  { apply in_parse_questions in Hq. destruct Hq as (block & _ & Hb).
    unfold parse_block in Hb.
    destruct (Py.split_char Py.newline (Py.strip block)) as [|first after] eqn:Hl;
      [discriminate|].
    destruct (collect_code after) as [[[code_lines rest] hl] ha].
    match type of Hb with
    | context [if ?c then _ else _] =>
        match c with
        | negb _ && _ && _ && _ => destruct c
        end
    end; injection Hb as <-; simpl;
    (intros H; apply strip_number_prefix_chars, strip_chars in H;
     apply (split_char_no_sep Py.newline (Py.strip block) first);
       [rewrite Hl; left; reflexivity | exact H]). }
  split; [exact Hnl|].
  unfold item_of. rewrite (split_first_newline_none _ Hnl). simpl.
  split; [|reflexivity].
  apply replace_newlines_id. intros H; apply Hnl, strip_chars, H.
Qed.

(* ------------------------------------------------------------------ *)
(** ** Properties of the submission step of [main] *)

Lemma split_blocks_nonempty (s : string) : split_blocks s <> [].
Proof.
  destruct s as [|c r]; simpl; [discriminate|].
  destruct (Ascii.eqb c Py.newline && matches block_head_re r); [discriminate|].
  destruct (split_blocks r); discriminate.
Qed.

Lemma forallb_false_exists {A} (f : A -> bool) (l : list A) :
  forallb f l = false -> exists x, In x l /\ f x = false.
Proof.
  induction l as [|x l IH]; simpl; [discriminate|].
  destruct (f x) eqn:E; simpl; [|eauto].
  intros H; destruct (IH H) as (y & Hy & Hf); eauto.
Qed.

Lemma number_input_accepts_iff (v : Z) :
  number_input_accepts v = true <-> (0 <= v <= 100)%Z.
Proof.
  unfold number_input_accepts. rewrite andb_true_iff, Z.leb_le, Z.leb_le. tauto.
Qed.

(** When [main] sends nothing. *)
Lemma submit_none_iff (content form_id : string) (quiz_mode shuffle : bool)
    (chosen : nat -> Z) :
  submit content form_id quiz_mode shuffle chosen = None <->
  content = "" \/
  (quiz_mode = true /\
   exists q, In q (parse_questions content) /\ ~ (0 <= points q <= 100)%Z).
Proof.
  unfold submit. destruct (String.eqb content "") eqn:E.
  { apply String.eqb_eq in E. split; auto. }
  assert (Hc : content <> "") by (intros H; apply String.eqb_neq in E; contradiction).
  pose proof (parse_questions_length content) as Hlen.
  destruct (parse_questions content) as [|q qs] eqn:Hp.
  { exfalso. apply (split_blocks_nonempty (Py.strip content)).
    destruct (split_blocks (Py.strip content)); [reflexivity | discriminate]. }
  unfold points_inputs_ok.
  destruct (forallb (fun q0 => number_input_accepts (points q0)) (q :: qs)) eqn:Hf;
    destruct quiz_mode; cbn [negb orb].
  - split; [intros Hn; discriminate Hn|].
    intros [H|[_ (q' & Hq' & Hr)]]; [contradiction|].
    exfalso. apply Hr. apply (proj1 (number_input_accepts_iff _)).
    rewrite forallb_forall in Hf. exact (Hf q' Hq').
  - split; [intros Hn; discriminate Hn|]. intros [H|[H _]]; [contradiction|discriminate H].
  - split; [intros _|intros _; reflexivity]. right. split; [reflexivity|].
    destruct (forallb_false_exists _ _ Hf) as (q' & Hq' & Hr).
    exists q'. split; [exact Hq'|]. rewrite <- number_input_accepts_iff. congruence.
  - split; [intros Hn; discriminate Hn|]. intros [H|[H _]]; [contradiction|discriminate H].
Qed.

(** Non-empty content is submitted unless quiz mode is on and a parsed
    question has points outside 0..100, whose [number_input] then raises:
    the "No valid questions found" warning is never reached. *)
Theorem nonempty_content_submitted (content form_id : string) (quiz_mode shuffle : bool)
    (chosen : nat -> Z) (Hc : content <> "") :
  submit content form_id quiz_mode shuffle chosen = None <->
  (quiz_mode = true /\
   exists q, In q (parse_questions content) /\ ~ (0 <= points q <= 100)%Z).
Proof.
  rewrite submit_none_iff. split; [intros [H|H]; [contradiction | exact H] | auto].
Qed.

Lemma override_points_from_points (quiz_mode : bool) (chosen : nat -> Z) (i : nat)
    (qs : list question_data) (q : question_data) :
  In q (override_points_from quiz_mode chosen i qs) ->
  exists j, points q = if quiz_mode then chosen j else 0%Z.
Proof.
  revert i; induction qs as [|q0 qs IH]; intros i H; simpl in H; [contradiction|].
  destruct H as [<-|H]; [exists i; reflexivity | exact (IH _ H)].
Qed.

Lemma override_points_from_length (quiz_mode : bool) (chosen : nat -> Z) (i : nat)
    (qs : list question_data) :
  length (override_points_from quiz_mode chosen i qs) = length qs.
Proof. revert i; induction qs; intros i; simpl; auto. Qed.

(** With widget values in the [number_input] range 0..100, every grading
    request sent from the app is worth between 1 and 100 points. *)
Theorem submitted_grading_points_range (content form_id : string) (shuffle : bool)
    (chosen : nat -> Z) (fc : form_call)
    (Hs : submit content form_id true shuffle chosen = Some fc)
    (Hrange : forall i, (0 <= chosen i <= 100)%Z)
    (i : Z) (ans : list string) (pv : Z) (mask : string)
    (Hin : In (UpdateItem i ans pv mask) (requests fc)) :
  (1 <= pv <= 100)%Z.
Proof.
  unfold submit in Hs. destruct (String.eqb content ""); [discriminate|].
  destruct (parse_questions content) as [|q0 qs]; [discriminate|].
  destruct (negb _); [discriminate|].
  injection Hs as <-.
  destruct (update_item_origin _ _ _ _ _ _ _ _ Hin) as (q & Hq & _ & _ & _ & -> & _).
  destruct (override_points_from_points _ _ _ _ _ Hq) as (j & ->).
  specialize (Hrange j). destruct (Z.eqb_spec (chosen j) 0); lia.
Qed.

Lemma inserted_requests (R : list question_data) (shuffle : bool)
    (form_id : option string) (quiz_mode : bool) :
  inserted (requests (create_google_form R shuffle form_id quiz_mode))
  = map (fun q => (item_of shuffle q, 0%Z)) (rev R).
Proof.
  rewrite requests_decompose, inserted_app.
  replace (inserted (if quiz_mode then _ else [])) with (@nil (item * Z))
    by (destruct quiz_mode; reflexivity).
  simpl. induction (rev R) as [|q qs IH]; simpl; [reflexivity|].
  rewrite inserted_app, inserted_emitted, IH; reflexivity.
Qed.

(** The app creates one question item per block of the content, and a new
    form exactly when the Form ID field is empty. *)
Theorem submitted_items_per_block (content form_id : string) (quiz_mode shuffle : bool)
    (chosen : nat -> Z) (fc : form_call)
    (Hs : submit content form_id quiz_mode shuffle chosen = Some fc) :
  length (inserted (requests fc)) = length (split_blocks (Py.strip content)) /\
  creates_form fc = String.eqb form_id "".
Proof.
  unfold submit in Hs. destruct (String.eqb content ""); [discriminate|].
  pose proof (parse_questions_length content) as Hlen.
  destruct (parse_questions content) as [|q0 qs] eqn:Hp; [discriminate|].
  destruct (negb _); [discriminate|].
  injection Hs as <-. split.
  - rewrite <- Hlen.
    rewrite inserted_requests, length_map, length_rev.
    apply override_points_from_length.
  - simpl. destruct (String.eqb form_id "") eqn:E; [reflexivity | exact E].
Qed.

Lemma join_cons_nonempty (sep x : string) (xs : list string) :
  x <> "" -> Py.join sep (x :: xs) <> "".
Proof.
  intros Hx. destruct x as [|c r]; [congruence|].
  destruct xs; simpl; discriminate.
Qed.

(** An uploaded .docx file is submitted exactly when one of its paragraphs
    is not blank, unless quiz mode is on and a parsed question has points
    outside 0..100. *)
Theorem docx_submitted_iff_nonblank (paragraphs : list string) (form_id : string)
    (quiz_mode shuffle : bool) (chosen : nat -> Z) :
  submit (docx_content paragraphs) form_id quiz_mode shuffle chosen = None <->
  (forall p, In p paragraphs -> Py.strip p = "") \/
  (quiz_mode = true /\
   exists q, In q (parse_questions (docx_content paragraphs)) /\
             ~ (0 <= points q <= 100)%Z).
Proof.
  rewrite submit_none_iff.
  assert (E : docx_content paragraphs = "" <->
              (forall p, In p paragraphs -> Py.strip p = "")).
  { unfold docx_content.
    destruct (filter (fun p => negb (String.eqb (Py.strip p) "")) paragraphs)
      as [|x xs] eqn:Hf.
    - split; [|reflexivity]. intros _ p Hp.
      destruct (String.eqb (Py.strip p) "") eqn:E; [apply String.eqb_eq, E|].
      assert (Hin : In p (filter (fun p => negb (String.eqb (Py.strip p) "")) paragraphs))
        by (apply filter_In; rewrite E; auto).
      rewrite Hf in Hin; contradiction.
    - assert (Hx : In x (filter (fun p => negb (String.eqb (Py.strip p) "")) paragraphs))
        by (rewrite Hf; left; reflexivity).
      apply filter_In in Hx. destruct Hx as [Hx Hb].
      assert (Hne : x <> "").
      { intros ->. simpl in Hb. discriminate. }
      split.
      + intros Hs. exfalso. exact (join_cons_nonempty _ _ xs Hne Hs).
      + intros H. specialize (H x Hx). rewrite H in Hb. discriminate. }
  rewrite E. tauto.
Qed.

(* ------------------------------------------------------------------ *)
(** ** Witnesses for the further properties *)

Lemma requests_at_index_zero_witness :
  let R := [{| question := "Q"; type := "MCQ"; options := ["A) x"; "B) y"];
               correct_answers := ["A) x"]; points := 0%Z; description := "" |}] in
  In (UpdateItem 0%Z ["A) x"] 1%Z grading_mask)
     (requests (create_google_form R false None true)) /\ 0%Z = 0%Z.
Proof.
  intros R.
  assert (H : In (UpdateItem 0%Z ["A) x"] 1%Z grading_mask)
                 (requests (create_google_form R false None true)))
    by (vm_compute; right; right; left; reflexivity).
  exact (conj H (requests_at_index_zero R false None true _ H)).
Defined.

Lemma parsed_options_nonempty_strings_witness :
  let text := text_of_lines ["1. What is 2+2?"; "A) 3"; "B) 4"; "CORRECT ANSWER: B"] in
  let q := {| question := "What is 2+2?"; type := "MCQ"; options := ["A) 3"; "B) 4"];
              correct_answers := ["B) 4"]; points := 0%Z; description := "" |} in
  In q (parse_questions text) /\ ~ In "" (options q).
Proof.
  intros text q.
  assert (H : In q (parse_questions text)) by (vm_compute; left; reflexivity).
  exact (conj H (parsed_options_nonempty_strings text q H)).
Defined.

Lemma points_default_zero_witness :
  let block := text_of_lines ["1. Q"; "A) x"; "CORRECT ANSWER: A"] in
  let q := {| question := "Q"; type := "MCQ"; options := ["A) x"];
              correct_answers := ["A) x"]; points := 0%Z; description := "" |} in
  parse_block block = Some q /\ points q = 0%Z.
Proof.
  intros block q.
  assert (Hb : parse_block block = Some q) by (vm_compute; reflexivity).
  split; [exact Hb|].
  apply (points_default_zero block q Hb).
  vm_compute. intros l H. repeat destruct H as [<-|H]; try reflexivity. contradiction.
Defined.

Lemma inferred_type_without_directive_witness :
  let block := text_of_lines ["1. Q"; "A) x"; "B) y"; "CORRECT ANSWER: A, B"] in
  let q := {| question := "Q"; type := "CHECKBOX"; options := ["A) x"; "B) y"];
              correct_answers := ["A) x"; "B) y"]; points := 0%Z; description := "" |} in
  parse_block block = Some q /\
  (type q = "SHORT" <-> options q = []) /\
  (type q = "CHECKBOX" <-> (2 <= length (correct_answers q))%nat) /\
  (type q = "MCQ" <-> options q <> [] /\ (length (correct_answers q) <= 1)%nat).
Proof.
  intros block q.
  assert (Hb : parse_block block = Some q) by (vm_compute; reflexivity).
  split; [exact Hb|].
  apply (inferred_type_without_directive block q Hb).
  vm_compute. intros l H. repeat destruct H as [<-|H]; try reflexivity. contradiction.
Defined.

Lemma grading_follows_its_choice_item_witness :
  let text := text_of_lines ["1. What is 2+2?"; "A) 3"; "B) 4"; "CORRECT ANSWER: B";
                             "POINTS: 5"] in
  exists pre post it ct opts,
    requests (create_google_form (parse_questions text) false None true)
    = pre ++ CreateItem it 0%Z :: UpdateItem 0%Z ["B) 4"] 5%Z grading_mask :: post /\
    question_type it = Some (ChoiceQuestion ct opts false) /\
    (ct = "RADIO" \/ ct = "CHECKBOX") /\ ["B) 4"] <> [] /\ incl ["B) 4"] opts.
Proof.
  intros text.
  apply (grading_follows_its_choice_item text false None true).
  vm_compute; right; right; left; reflexivity.
Defined.

Lemma parsed_item_title_description_witness :
  let text := text_of_lines ["1.  What is 2+2?  "; "x = 1"; "A) 3"; "B) 4"] in
  let q := {| question := "What is 2+2?"; type := "MCQ"; options := ["A) 3"; "B) 4"];
              correct_answers := []; points := 0%Z; description := "x = 1" |} in
  ~ In Py.newline (chars (question q)) /\
  title (item_of true q) = Py.strip (question q) /\
  item_description (item_of true q) = description q.
Proof.
  intros text q.
  apply (parsed_item_title_description text true q).
  vm_compute; left; reflexivity.
Defined.

(** On a question worth 500 points in quiz mode nothing is sent. *)
Lemma nonempty_content_submitted_witness :
  let content := text_of_lines ["1. Q"; "POINTS: 500"] in
  submit content "" true false (fun _ => 5%Z) = None.
Proof.
  intros content.
  apply (nonempty_content_submitted content "" true false (fun _ => 5%Z)
           ltac:(vm_compute; discriminate)).
  split; [reflexivity|].
  exists {| question := "Q"; type := "SHORT"; options := [];
            correct_answers := []; points := 500%Z; description := "" |}.
  split; [vm_compute; left; reflexivity | simpl; lia].
Defined.

Lemma submitted_grading_points_range_witness :
  let content := text_of_lines ["1. What is 2+2?"; "A) 3"; "B) 4"; "CORRECT ANSWER: B"] in
  let fc := create_google_form
              (override_points true (fun _ => 5%Z) (parse_questions content))
              false None true in
  submit content "" true false (fun _ => 5%Z) = Some fc /\
  In (UpdateItem 0%Z ["B) 4"] 5%Z grading_mask) (requests fc) /\
  (1 <= 5 <= 100)%Z.
Proof.
  intros content fc.
  assert (Hs : submit content "" true false (fun _ => 5%Z) = Some fc)
    by (vm_compute; reflexivity).
  assert (Hin : In (UpdateItem 0%Z ["B) 4"] 5%Z grading_mask) (requests fc))
    by (vm_compute; right; right; left; reflexivity).
  split; [exact Hs|]. split; [exact Hin|].
  exact (submitted_grading_points_range content "" false (fun _ => 5%Z) fc Hs
           ltac:(intros; lia) _ _ _ _ Hin).
Defined.

Lemma submitted_items_per_block_witness :
  let content := text_of_lines ["1. Q"; "A) x"; "2. R"] in
  let fc := create_google_form
              (override_points false (fun _ => 0%Z) (parse_questions content))
              false (Some "abc") false in
  submit content "abc" false false (fun _ => 0%Z) = Some fc /\
  length (inserted (requests fc)) = length (split_blocks (Py.strip content)) /\
  creates_form fc = String.eqb "abc" "".
Proof.
  intros content fc.
  assert (Hs : submit content "abc" false false (fun _ => 0%Z) = Some fc)
    by (vm_compute; reflexivity).
  exact (conj Hs (submitted_items_per_block content "abc" false false _ fc Hs)).
Defined.
